(** * Sling stream-to-asset translation

    A shallow embedding of
    [dagster_embedded_elt/sling/asset_decorator.py]: the enumeration of
    the streams of a replication config, the default
    [DagsterSlingTranslator] naming policy, and the loop of
    [sling_assets] that builds one [AssetSpec] per stream.

    Python strings are sequences of Unicode code points, so a string is
    a list of code points here (one element per character, whatever its
    width in an encoding).  A Python [dict] iterates in insertion
    order, and the order of [streams.items()] is what the loops see, so
    a dict is an association list.  Exceptions are an error result. *)

From Stdlib Require Import List NArith ZArith String Ascii Bool Permutation.
Import ListNotations.

Set Implicit Arguments.

(* ===================================================================== *)
(** ** Python strings *)
(* ===================================================================== *)

Module PyStr.

(** A character is its code point. *)
Definition char := N.
Definition str := list char.

(** An ASCII literal as a Python string. *)
Definition lit (s : string) : str :=
  map N_of_ascii (list_ascii_of_string s).

Definition dquote : char := 34%N.
Definition underscore : char := 95%N.
Definition dot : char := 46%N.

Fixpoint eqb (a b : str) : bool :=
  match a, b with
  | [], [] => true
  | x :: a', y :: b' => N.eqb x y && eqb a' b'
  | _, _ => false
  end.

(** [s.startswith(p)]. *)
Fixpoint startswith (p s : str) : bool :=
  match p, s with
  | [], _ => true
  | x :: p', y :: s' => N.eqb x y && startswith p' s'
  | _ :: _, [] => false
  end.

(** The scan of [str.replace] for a non-empty [old]: left to right,
    occurrences do not overlap.  [skip] counts the characters of the
    occurrence just replaced that are still to be passed over. *)
Fixpoint replace_from (old new s : str) (skip : nat) : str :=
  match s with
  | [] => []
  | c :: t =>
      match skip with
      | S k => replace_from old new t k
      | O =>
          if startswith old s
          then new ++ replace_from old new t (List.length old - 1)
          else c :: replace_from old new t 0
      end
  end.

(** [s.replace(old, new)].  With an empty [old], Python puts [new]
    before every character and at the end. *)
Definition replace (s old new : str) : str :=
  match old with
  | [] => new ++ flat_map (fun c => c :: new) s
  | _ :: _ => replace_from old new s 0
  end.

(** The scan of [str.split(sep)] for a non-empty [sep]; [cur] is the
    segment being read, most recent character first. *)
Fixpoint split_from (sep s : str) (skip : nat) (cur : str) : list str :=
  match s with
  | [] => [rev cur]
  | c :: t =>
      match skip with
      | S k => split_from sep t k cur
      | O =>
          if startswith sep s
          then rev cur :: split_from sep t (List.length sep - 1) []
          else split_from sep t 0 (c :: cur)
      end
  end.

(** [sep.join(parts)]. *)
Fixpoint join (sep : str) (parts : list str) : str :=
  match parts with
  | [] => []
  | [p] => p
  | p :: rest => p ++ sep ++ join sep rest
  end.

End PyStr.

Import PyStr.
Arguments lit s%_string : simpl never.

(* ===================================================================== *)
(** ** The fragment of [re] the translator uses *)
(* ===================================================================== *)

Module Re.

(** A bracket expression: literals and ranges, possibly negated. *)
Inductive class_item : Type :=
| Lit (c : char)
| Range (lo hi : char).

Record char_class : Type := mk_class {
  negated : bool;
  items : list class_item
}.

Definition item_matches (it : class_item) (c : char) : bool :=
  match it with
  | Lit x => N.eqb c x
  | Range lo hi => N.leb lo c && N.leb c hi
  end.

Definition class_matches (cc : char_class) (c : char) : bool :=
  xorb (negated cc) (existsb (fun it => item_matches it c) (items cc)).

(** [re.sub(pattern, repl, string)] for a pattern that is one bracket
    expression and a [repl] without escapes: every match is one
    character, matches are found left to right, and each is replaced
    by [repl]. *)
Fixpoint sub (cc : char_class) (repl s : str) : str :=
  match s with
  | [] => []
  | c :: t =>
      if class_matches cc c
      then repl ++ sub cc repl t
      else c :: sub cc repl t
  end.

(** The pattern [[^a-zA-Z0-9_.]]. *)
Definition not_name_char : char_class :=
  {| negated := true;
     items := [ Range 97%N 122%N; Range 65%N 90%N; Range 48%N 57%N;
                Lit underscore; Lit dot ] |}.

End Re.

(* ===================================================================== *)
(** ** Exceptions and results *)
(* ===================================================================== *)

Inductive exn : Type :=
| KeyError
| AttributeError
| TypeError
| ValueError
| ValidationError.

Inductive result (A : Type) : Type :=
| Ok (a : A)
| Raise (e : exn).

Arguments Ok {A} a.
Arguments Raise {A} e.

Definition bind {A B : Type} (r : result A) (k : A -> result B) : result B :=
  match r with
  | Ok a => k a
  | Raise e => Raise e
  end.

Notation "x <- c ;; k" := (bind c (fun x => k))
  (at level 61, c at next level, right associativity).

(** Run [f] on every element, left to right, stopping at the first
    exception. *)
Fixpoint mapM {A B : Type} (f : A -> result B) (l : list A) : result (list B) :=
  match l with
  | [] => Ok []
  | x :: t => y <- f x ;; ys <- mapM f t ;; Ok (y :: ys)
  end.

(* ===================================================================== *)
(** ** Python values of a parsed replication config *)
(* ===================================================================== *)

(** What [yaml.safe_load] gives: [None], booleans, integers, strings,
    lists, dicts with string keys (in insertion order), floats, bytes
    (from a binary scalar), dates and datetimes (from timestamps) and
    sets.  A float is its 64-bit IEEE 754 pattern, bytes are a list of
    octets, and a set is the list of its members in some order. *)
#[warnings="-register-all"]
Inductive pyval : Type :=
| VNone
| VBool (b : bool)
| VInt (z : Z)
| VStr (s : str)
| VList (l : list pyval)
| VDict (d : list (str * pyval))
| VFloat (bits : N)
| VBytes (b : list N)
| VDate (year month day : N)
| VDatetime (year month day hour minute second microsecond : N)
| VSet (members : list pyval).

Definition dict := list (str * pyval).

Fixpoint dict_lookup (k : str) (d : dict) : option pyval :=
  match d with
  | [] => None
  | (k', v) :: rest => if PyStr.eqb k k' then Some v else dict_lookup k rest
  end.

(** [bool(v)].  A float is falsy when it is a zero of either sign,
    that is, when its pattern without the sign bit is zero; a date or
    a datetime is always truthy. *)
Definition truthy (v : pyval) : bool :=
  match v with
  | VNone => false
  | VBool b => b
  | VInt z => negb (Z.eqb z 0)
  | VStr s => match s with [] => false | _ :: _ => true end
  | VList l => match l with [] => false | _ :: _ => true end
  | VDict d => match d with [] => false | _ :: _ => true end
  | VFloat bits => negb (N.eqb (N.land bits (N.ones 63)) 0)
  | VBytes b => match b with [] => false | _ :: _ => true end
  | VDate _ _ _ => true
  | VDatetime _ _ _ _ _ _ _ => true
  | VSet m => match m with [] => false | _ :: _ => true end
  end.

(** [isinstance(v, dict)]. *)
Definition isinstance_dict (v : pyval) : bool :=
  match v with
  | VDict _ => true
  | _ => false
  end.

(** [v[k]] for a string [k]. *)
Definition py_getitem (v : pyval) (k : str) : result pyval :=
  match v with
  | VDict d =>
      match dict_lookup k d with
      | Some x => Ok x
      | None => Raise KeyError
      end
  | _ => Raise TypeError
  end.

(** [v.get(k, default)]: only a dict has the method. *)
Definition py_get (v : pyval) (k : str) (default : pyval) : result pyval :=
  match v with
  | VDict d =>
      match dict_lookup k d with
      | Some x => Ok x
      | None => Ok default
      end
  | _ => Raise AttributeError
  end.

(** [v.items()]. *)
Definition py_items (v : pyval) : result dict :=
  match v with
  | VDict d => Ok d
  | _ => Raise AttributeError
  end.

(** [v.replace(old, new)] with two strings.  A string has the
    method.  Bytes, dates and datetimes have a [replace] of their own
    that rejects string arguments with a [TypeError]; every other value
    has no such attribute. *)
Definition py_replace (v : pyval) (old new : str) : result str :=
  match v with
  | VStr s => Ok (PyStr.replace s old new)
  | VBytes _ | VDate _ _ _ | VDatetime _ _ _ _ _ _ _ => Raise TypeError
  | _ => Raise AttributeError
  end.

(** [s.split(sep)]: an empty separator is a [ValueError]. *)
Definition py_split (s sep : str) : result (list str) :=
  match sep with
  | [] => Raise ValueError
  | _ :: _ => Ok (PyStr.split_from sep s 0 [])
  end.

(* ===================================================================== *)
(** ** Asset keys and asset specs *)
(* ===================================================================== *)

(** Modelled from the spec: [AssetKey] is dagster's class and is not
    part of these sources.  An asset identifier is an ordered sequence
    of path segments, and two identifiers are equal iff their segment
    sequences are equal. *)
Record AssetKey : Type := mkAssetKey {
  path : list str
}.

(** Modelled from the spec: [AssetSpec] is dagster's class.  The record
    keeps the target identifier, the dependency identifier handed to
    [deps], and the pass-through [group_name] and [code_version]; the
    two policy objects are carried along unchanged in the same way and
    are left out. *)
Record AssetSpec : Type := mkAssetSpec {
  key : AssetKey;
  deps : AssetKey;
  group_name : option str;
  code_version : option str
}.

(* ===================================================================== *)
(** ** [get_streams_from_replication] *)
(* ===================================================================== *)

(** The body of the loop over [streams.items()]: the value appended to
    [keys] for one entry. *)
Definition stream_of_item (key : str) (value : pyval) : result pyval :=
  if isinstance_dict value then
    meta <- py_get value (lit "meta") (VDict []) ;;
    dagster <- py_get meta (lit "dagster") (VDict []) ;;
    asset_key_config <- py_get dagster (lit "asset_key") (VList []) ;;
    Ok (if truthy asset_key_config then asset_key_config else VStr key)
  else
    Ok (VStr key).

(** The loop, with [keys] as the list built so far. *)
Fixpoint streams_loop (items : dict) (keys : list pyval) : result (list pyval) :=
  match items with
  | [] => Ok keys
  | (key, value) :: rest =>
      k <- stream_of_item key value ;;
      streams_loop rest (keys ++ [k])
  end.

Definition get_streams_from_replication (replication_config : pyval)
  : result (list pyval) :=
  streams <- py_getitem replication_config (lit "streams") ;;
  items <- py_items streams ;;
  streams_loop items [].

(* ===================================================================== *)
(** ** [DagsterSlingTranslator] *)
(* ===================================================================== *)

(** The three class methods a translator answers to.  A subclass may
    replace any of them; [sling_assets] calls the last two with the
    stream alone, so [target_prefix] is optional. *)
Record SlingTranslator : Type := mkTranslator {
  tr_sanitize_stream_name : pyval -> result str;
  tr_get_asset_key_for_target : pyval -> option str -> result AssetKey;
  tr_get_deps_asset_key : pyval -> result AssetKey
}.

Module DagsterSlingTranslator.

(** Double quotes are removed with [str.replace], then [re.sub]
    puts an underscore for every match of [[^a-zA-Z0-9_.]]. *)
Definition sanitize_stream_name (stream_name : pyval) : result str :=
  unquoted <- py_replace stream_name [dquote] [] ;;
  Ok (Re.sub Re.not_name_char (lit "_") unquoted).

(** The methods below call [cls.sanitize_stream_name], whatever the
    class at hand defines it to be. *)
Definition get_asset_key_for_target
    (cls_sanitize_stream_name : pyval -> result str)
    (stream_name : pyval) (target_prefix : option str) : result AssetKey :=
  let target_prefix :=
    match target_prefix with
    | Some p => p
    | None => lit "target"
    end in
  sanitized <- cls_sanitize_stream_name stream_name ;;
  components <- py_split sanitized (lit ".") ;;
  Ok (mkAssetKey ([target_prefix] ++ components)).

Definition get_deps_asset_key
    (cls_sanitize_stream_name : pyval -> result str)
    (stream_name : pyval) : result AssetKey :=
  sanitized <- cls_sanitize_stream_name stream_name ;;
  components <- py_split sanitized (lit ".") ;;
  Ok (mkAssetKey components).

(** [DagsterSlingTranslator()], the default of [sling_assets]. *)
Definition instance : SlingTranslator :=
  {| tr_sanitize_stream_name := sanitize_stream_name;
     tr_get_asset_key_for_target :=
       get_asset_key_for_target sanitize_stream_name;
     tr_get_deps_asset_key := get_deps_asset_key sanitize_stream_name |}.

End DagsterSlingTranslator.

(** The spec's names for the default operations on a stream name. *)
Definition sanitize (s : str) : result str :=
  DagsterSlingTranslator.sanitize_stream_name (VStr s).

Definition target_identifier (s : str) (target_prefix : option str)
  : result AssetKey :=
  tr_get_asset_key_for_target DagsterSlingTranslator.instance (VStr s)
    target_prefix.

Definition dependency_identifier (s : str) : result AssetKey :=
  tr_get_deps_asset_key DagsterSlingTranslator.instance (VStr s).

(* ===================================================================== *)
(** ** [sling_assets] *)
(* ===================================================================== *)

(** Modelled from the spec: [validate_replication] lives in
    [sling_replication.py], which is not part of these sources.  The
    translator takes an already-parsed in-memory structure; a
    specification without the required top-level key [streams], or
    whose streams are not a mapping, is a validation failure, and a
    well-formed one is handed on unchanged. *)
Definition validate_replication (replication_config : pyval) : result pyval :=
  match replication_config with
  | VDict d =>
      match dict_lookup (lit "streams") d with
      | Some (VDict _) => Ok replication_config
      | _ => Raise ValidationError
      end
  | _ => Raise ValidationError
  end.

(** The body of the loop over [streams]: the spec appended for one
    stream.  [key] is evaluated before [deps]. *)
Definition spec_of_stream (dagster_sling_translator : SlingTranslator)
    (group_name code_version : option str) (stream : pyval) : result AssetSpec :=
  k <- tr_get_asset_key_for_target dagster_sling_translator stream None ;;
  d <- tr_get_deps_asset_key dagster_sling_translator stream ;;
  Ok {| key := k; deps := d;
        group_name := group_name; code_version := code_version |}.

Fixpoint specs_loop (dagster_sling_translator : SlingTranslator)
    (group_name code_version : option str)
    (streams : list pyval) (specs : list AssetSpec) : result (list AssetSpec) :=
  match streams with
  | [] => Ok specs
  | stream :: rest =>
      s <- spec_of_stream dagster_sling_translator group_name code_version
             stream ;;
      specs_loop dagster_sling_translator group_name code_version rest
        (specs ++ [s])
  end.

(** [sling_assets] up to the list [specs] that the returned decorator
    closes over and passes to [multi_asset]. *)
Definition sling_assets (replication_config : pyval)
    (dagster_sling_translator : SlingTranslator)
    (group_name code_version : option str) : result (list AssetSpec) :=
  replication_config <- validate_replication replication_config ;;
  streams <- get_streams_from_replication replication_config ;;
  specs_loop dagster_sling_translator group_name code_version streams [].

(** The (target identifier, dependency identifier) pairs of a list of
    specs. *)
Definition pairs (specs : list AssetSpec) : list (AssetKey * AssetKey) :=
  map (fun s => (key s, deps s)) specs.

(** A replication config whose only top-level key is [streams]. *)
Definition replication_of (streams : dict) : pyval :=
  VDict [(lit "streams", VDict streams)].

(** A stream descriptor with [v] at the nested path
    [meta.dagster.field] and nothing else. *)
Definition dagster_meta (field : str) (v : pyval) : pyval :=
  VDict [(lit "meta", VDict [(lit "dagster", VDict [(field, v)])])].

(* ===================================================================== *)
(** ** The spec's reading of sanitization *)
(* ===================================================================== *)

(** Membership in the class [[A-Za-z0-9_.]]. *)
Definition allowed (c : char) : bool :=
  (N.leb 97 c && N.leb c 122) || (N.leb 65 c && N.leb c 90)
  || (N.leb 48 c && N.leb c 57) || N.eqb c underscore || N.eqb c dot.

Definition not_dquote (c : char) : bool := negb (N.eqb c dquote).

(** The spec's words: delete every double quote, then put one
    underscore for each remaining character outside the class. *)
Definition sanitize_spec (s : str) : str :=
  map (fun c => if allowed c then c else underscore) (filter not_dquote s).

(* ===================================================================== *)
(** ** The spec's reading of stream enumeration *)
(* ===================================================================== *)

(** The value found at the nested path [meta.dagster.asset_key] of a
    structured descriptor, when every step of the path is there. *)
Definition declared_override (descriptor : pyval) : option pyval :=
  match descriptor with
  | VDict d =>
      match dict_lookup (lit "meta") d with
      | Some (VDict m) =>
          match dict_lookup (lit "dagster") m with
          | Some (VDict g) => dict_lookup (lit "asset_key") g
          | _ => None
          end
      | _ => None
      end
  | _ => None
  end.

(** The logical stream identifier of an entry: a truthy override, else
    the raw key. *)
Definition logical_stream (entry : str * pyval) : pyval :=
  match declared_override (snd entry) with
  | Some ov => if truthy ov then ov else VStr (fst entry)
  | None => VStr (fst entry)
  end.

(** A structured descriptor can be walked when its [meta], if present,
    is a mapping whose [dagster], if present, is a mapping too. *)
Definition walkable (descriptor : pyval) : bool :=
  match descriptor with
  | VDict d =>
      match dict_lookup (lit "meta") d with
      | None => true
      | Some (VDict m) =>
          match dict_lookup (lit "dagster") m with
          | None | Some (VDict _) => true
          | Some _ => false
          end
      | Some _ => false
      end
  | _ => true
  end.

(** Two outcomes agree up to order when both raise, or both return and
    the returned lists are permutations of each other. *)
Definition same_up_to_order {A : Type} (r r' : result (list A)) : Prop :=
  match r, r' with
  | Ok l, Ok l' => Permutation l l'
  | Raise _, Raise _ => True
  | _, _ => False
  end.

(** What C8 states for one entry: the override whenever the path
    [meta.dagster.asset_key] is there, else the raw key. *)
Definition claimed_stream (entry : str * pyval) (id : pyval) : Prop :=
  match declared_override (snd entry) with
  | Some ov => id = ov
  | None => id = VStr (fst entry)
  end.

(* ===================================================================== *)
(** ** Concrete inputs *)
(* ===================================================================== *)

(** The 13-character name that starts and ends with a double quote. *)
Definition weird_name : str := [dquote] ++ lit "weird name!" ++ [dquote].

(** One stream [public.users] whose descriptor sets
    [meta.dagster.asset_key] to [v]. *)
Definition users_with_asset_key (v : pyval) : pyval :=
  replication_of [(lit "public.users", dagster_meta (lit "asset_key") v)].

(** One stream [public.users] whose descriptor sets [meta.dagster.deps]
    to [v]. *)
Definition users_with_deps (v : pyval) : pyval :=
  replication_of [(lit "public.users", dagster_meta (lit "deps") v)].

(** Two entries: one without a descriptor, one with an override. *)
Definition two_streams : dict :=
  [(lit "public.accounts", VNone);
   (lit "public.users",
    dagster_meta (lit "asset_key") (VStr (lit "mydb_users")))].

(** Two entries without descriptors, and the same two the other way
    round. *)
Definition accounts_then_users : dict :=
  [(lit "public.accounts", VNone); (lit "public.foo users", VNone)].

Definition users_then_accounts : dict :=
  [(lit "public.foo users", VNone); (lit "public.accounts", VNone)].

(** The translation of a config by the default translator: the list of
    (target identifier, dependency identifier) pairs, in stream order. *)
Definition translation_pairs (t : SlingTranslator) (cfg : pyval)
  : result (list (AssetKey * AssetKey)) :=
  specs <- sling_assets cfg t None None ;; Ok (pairs specs).

(** The subclass of the docstrings: a lookup table from stream names to
    asset names replaces both derivations. *)
Module CustomSlingTranslator.

Definition table : list (str * str) :=
  [(lit "stream1", lit "asset1"); (lit "stream2", lit "asset2")].

Fixpoint table_lookup (k : str) (m : list (str * str)) : option str :=
  match m with
  | [] => None
  | (k', v) :: rest => if PyStr.eqb k k' then Some v else table_lookup k rest
  end.

(** [AssetKey(map[stream_name])]: a missing name is a [KeyError], an
    unhashable one (a list, a dict or a set) a [TypeError]. *)
Definition asset_key_of (stream_name : pyval) : result AssetKey :=
  match stream_name with
  | VStr s =>
      match table_lookup s table with
      | Some a => Ok (mkAssetKey [a])
      | None => Raise KeyError
      end
  | VList _ | VDict _ | VSet _ => Raise TypeError
  | _ => Raise KeyError
  end.

Definition instance : SlingTranslator :=
  {| tr_sanitize_stream_name := DagsterSlingTranslator.sanitize_stream_name;
     tr_get_asset_key_for_target := fun stream_name _ => asset_key_of stream_name;
     tr_get_deps_asset_key := asset_key_of |}.

End CustomSlingTranslator.

(* ===================================================================== *)
(** ** Notions used to describe the translator's behaviour *)
(* ===================================================================== *)

(** [isinstance(v, str)]. *)
Definition is_str (v : pyval) : bool :=
  match v with
  | VStr _ => true
  | _ => false
  end.

(** A value that is not a string but has a [replace] method of its
    own: bytes, a date, a datetime. *)
Definition has_other_replace (v : pyval) : bool :=
  match v with
  | VBytes _ | VDate _ _ _ | VDatetime _ _ _ _ _ _ _ => true
  | _ => false
  end.

(** What [v.replace] with two string arguments raises on a value that
    is not a string. *)
Definition replace_failure (v : pyval) : exn :=
  if has_other_replace v then TypeError else AttributeError.

(** The number of dots of a name. *)
Definition dots (s : str) : nat := count_occ N.eq_dec s dot.

(** A character that may occur inside one segment of a derived key:
    a letter, a digit or the underscore. *)
Definition segment_char (c : char) : bool := allowed c && negb (N.eqb c dot).

(** An entry the default translator can name: its descriptor can be
    walked and its logical stream identifier is a string. *)
Definition translatable (entry : str * pyval) : bool :=
  walkable (snd entry) && is_str (logical_stream entry).

(** Two descriptors with the same [meta]: both structured with the same
    value (or none) under [meta], or both not structured. *)
Definition same_meta (v v' : pyval) : Prop :=
  match v, v' with
  | VDict d, VDict d' =>
      dict_lookup (lit "meta") d = dict_lookup (lit "meta") d'
  | VDict _, _ | _, VDict _ => False
  | _, _ => True
  end.

(** Two entries with the same key and the same [meta]. *)
Definition same_entry (e e' : str * pyval) : Prop :=
  fst e = fst e' /\ same_meta (snd e) (snd e').

(* ===================================================================== *)
(** ** The SQL statements of the Redshift client *)
(* ===================================================================== *)

(** [dagster_aws/redshift/io_manager.py]: the statement builders of
    [RedshiftDbClient].  [TableSlice] and [TablePartition] are
    dagster's named tuples; the records below keep the fields these
    functions read.  Datetimes and their [strftime] belong to Python's
    library and are taken as given. *)
Module Redshift.

Section Statements.

Variable datetime : Type.

(** [dt.strftime(format)]. *)
Variable strftime : datetime -> str -> str.

Record TablePartition : Type := mkTablePartition {
  time_window : datetime * datetime;
  partition_column : str
}.

Record TableSlice : Type := mkTableSlice {
  table : str;
  schema : str;
  columns : option (list str);
  partition : option TablePartition
}.

Definition newline : str := [10%N].

Definition REDSHIFT_DATETIME_FORMAT : str := lit "%Y-%m-%d %H:%M:%S".

Definition _time_window_where_clause (table_partition : TablePartition) : str :=
  let (start_dt, end_dt) := time_window table_partition in
  let start_dt_str := strftime start_dt REDSHIFT_DATETIME_FORMAT in
  let end_dt_str := strftime end_dt REDSHIFT_DATETIME_FORMAT in
  lit "WHERE " ++ partition_column table_partition ++ lit " >= '"
  ++ start_dt_str ++ lit "' AND " ++ partition_column table_partition
  ++ lit " < '" ++ end_dt_str ++ lit "'".

(** A partition, when present, is a non-empty named tuple and so is
    truthy. *)
Definition _get_cleanup_statement (table_slice : TableSlice) : str :=
  match partition table_slice with
  | Some p =>
      (lit "DELETE FROM " ++ schema table_slice ++ lit "."
       ++ table table_slice ++ newline)
      ++ _time_window_where_clause p
  | None =>
      lit "DELETE FROM " ++ schema table_slice ++ lit "." ++ table table_slice
  end.

(** The column list of the select: the columns joined by a comma and a
    space when there are any, else a star. *)
Definition col_str (table_slice : TableSlice) : str :=
  match columns table_slice with
  | Some (c :: cs) => join (lit ", ") (c :: cs)
  | Some [] | None => lit "*"
  end.

(** [get_select_statement]: the lines it prints, and the statement it
    returns. *)
Definition get_select_statement (table_slice : TableSlice) : list str * str :=
  let printed := [lit "IN SELECT"] in
  match partition table_slice with
  | Some p =>
      (printed,
       (lit "SELECT " ++ col_str table_slice ++ lit " FROM "
        ++ schema table_slice ++ lit "." ++ table table_slice ++ newline)
       ++ _time_window_where_clause p)
  | None =>
      let stmt :=
        lit "SELECT " ++ col_str table_slice ++ lit " FROM "
        ++ schema table_slice ++ lit "." ++ table table_slice in
      (printed ++ [lit "SELECT STATEMENT"; stmt], stmt)
  end.

End Statements.

End Redshift.

(* ===================================================================== *)
(** ** Facts about the string operations *)
(* ===================================================================== *)

Section StringFacts.

Lemma startswith_single (q c : char) (t : str) :
  startswith [q] (c :: t) = N.eqb q c.
Proof. cbn. apply andb_true_r. Qed.

(** Replacing a one-character [old] by the empty string deletes its
    occurrences. *)
Lemma replace_single_empty (q : char) (s : str) :
  PyStr.replace s [q] [] = filter (fun c => negb (N.eqb c q)) s.
Proof.
  unfold PyStr.replace.
  induction s as [|c t IH]; [reflexivity|].
  cbn [replace_from filter]. rewrite startswith_single, (N.eqb_sym c q).
  destruct (N.eqb q c); cbn [negb List.length Nat.sub app];
    rewrite IH; reflexivity.
Qed.

Lemma class_matches_not_name_char (c : char) :
  Re.class_matches Re.not_name_char c = negb (allowed c).
Proof.
  unfold Re.class_matches, Re.not_name_char, allowed. cbn.
  rewrite orb_false_r, !orb_assoc. reflexivity.
Qed.

Lemma sub_not_name_char (s : str) :
  Re.sub Re.not_name_char [underscore] s
  = map (fun c => if allowed c then c else underscore) s.
Proof.
  induction s as [|c t IH]; [reflexivity|].
  cbn [Re.sub map]. rewrite class_matches_not_name_char, IH.
  destruct (allowed c); reflexivity.
Qed.

Lemma allowed_not_dquote (c : char) : allowed c = true -> not_dquote c = true.
Proof.
  unfold not_dquote. destruct (N.eqb c dquote) eqn:E; [|reflexivity].
  apply N.eqb_eq in E. subst c. discriminate.
Qed.

Lemma sanitize_spec_allowed (s : str) : forallb allowed (sanitize_spec s) = true.
Proof.
  unfold sanitize_spec.
  induction (filter not_dquote s) as [|c t IH]; [reflexivity|].
  cbn [map forallb]. rewrite IH, andb_true_r.
  destruct (allowed c) eqn:E; [exact E | reflexivity].
Qed.

Lemma sanitize_spec_fixes_allowed (s : str) :
  forallb allowed s = true -> sanitize_spec s = s.
Proof.
  unfold sanitize_spec.
  induction s as [|c t IH]; [reflexivity|].
  cbn [forallb filter]. intros H. apply andb_prop in H as [Hc Ht].
  rewrite (allowed_not_dquote c Hc). cbn [map]. rewrite Hc, (IH Ht).
  reflexivity.
Qed.

(** The source's pipeline computes the spec's reading. *)
Lemma sanitize_eq_spec (s : str) : sanitize s = Ok (sanitize_spec s).
Proof.
  unfold sanitize, DagsterSlingTranslator.sanitize_stream_name, py_replace.
  cbn [bind]. rewrite replace_single_empty.
  change (lit "_") with [underscore]. rewrite sub_not_name_char.
  reflexivity.
Qed.

(** Splitting on one character. *)
Lemma split_from_not_nil (sep s : str) (skip : nat) (cur : str) :
  split_from sep s skip cur <> [].
Proof.
  revert skip cur. induction s as [|c t IH]; intros skip cur; cbn.
  - discriminate.
  - destruct skip; [|apply IH].
    destruct (startswith sep (c :: t)); [discriminate | apply IH].
Qed.

Lemma join_cons (sep p : str) (rest : list str) :
  rest <> [] -> join sep (p :: rest) = p ++ sep ++ join sep rest.
Proof. destruct rest; [congruence | reflexivity]. Qed.

Lemma join_split_single (d : char) (s cur : str) :
  join [d] (split_from [d] s 0 cur) = rev cur ++ s.
Proof.
  revert cur. induction s as [|c t IH]; intros cur.
  - cbn. rewrite app_nil_r. reflexivity.
  - cbn [split_from]. rewrite startswith_single.
    destruct (N.eqb d c) eqn:E.
    + apply N.eqb_eq in E. subst c. cbn [List.length Nat.sub].
      rewrite join_cons by apply split_from_not_nil.
      rewrite IH. reflexivity.
    + rewrite IH. cbn [rev]. rewrite <- app_assoc. reflexivity.
Qed.

Lemma split_single_no_sep (d : char) (s cur : str) :
  ~ In d cur ->
  Forall (fun seg => ~ In d seg) (split_from [d] s 0 cur).
Proof.
  revert cur. induction s as [|c t IH]; intros cur Hcur.
  - cbn. constructor; [|constructor]. rewrite <- in_rev. exact Hcur.
  - cbn [split_from]. rewrite startswith_single.
    destruct (N.eqb d c) eqn:E.
    + cbn [List.length Nat.sub]. constructor.
      * rewrite <- in_rev. exact Hcur.
      * apply IH. intros [].
    + apply IH. intros [H|H]; [|exact (Hcur H)].
      subst c. rewrite N.eqb_refl in E. discriminate.
Qed.

Lemma py_split_dot (s : str) :
  py_split s (lit ".") = Ok (split_from [dot] s 0 []).
Proof. reflexivity. Qed.

End StringFacts.

(* ===================================================================== *)
(** ** Facts about the loops *)
(* ===================================================================== *)

Section LoopFacts.

Lemma streams_loop_mapM (items : dict) (keys : list pyval) :
  streams_loop items keys
  = (ks <- mapM (fun kv => stream_of_item (fst kv) (snd kv)) items ;;
     Ok (keys ++ ks)).
Proof.
  revert keys. induction items as [|[k v] rest IH]; intros keys; cbn.
  - rewrite app_nil_r. reflexivity.
  - destruct (stream_of_item k v) as [x|e]; cbn; [|reflexivity].
    rewrite IH.
    destruct (mapM _ rest) as [xs|e]; cbn; [|reflexivity].
    rewrite <- app_assoc. reflexivity.
Qed.

Lemma specs_loop_mapM (t : SlingTranslator) (gn cv : option str)
    (streams : list pyval) (specs : list AssetSpec) :
  specs_loop t gn cv streams specs
  = (ss <- mapM (spec_of_stream t gn cv) streams ;; Ok (specs ++ ss)).
Proof.
  revert specs. induction streams as [|x rest IH]; intros specs; cbn.
  - rewrite app_nil_r. reflexivity.
  - destruct (spec_of_stream t gn cv x) as [y|e]; cbn; [|reflexivity].
    rewrite IH.
    destruct (mapM _ rest) as [ys|e]; cbn; [|reflexivity].
    rewrite <- app_assoc. reflexivity.
Qed.

Lemma stream_of_item_walkable (k : str) (v : pyval) :
  walkable v = true -> stream_of_item k v = Ok (logical_stream (k, v)).
Proof.
  unfold stream_of_item, logical_stream, declared_override, walkable.
  destruct v as [| | | | |d| | | | |]; cbn; try reflexivity.
  destruct (dict_lookup (lit "meta") d) as [[| | | | |m| | | | |]|]; cbn;
    try discriminate; try reflexivity.
  destruct (dict_lookup (lit "dagster") m) as [[| | | | |g| | | | |]|]; cbn;
    try discriminate; try reflexivity.
  destruct (dict_lookup (lit "asset_key") g) as [ov|]; reflexivity.
Qed.

Lemma stream_of_item_not_walkable (k : str) (v : pyval) :
  walkable v = false -> stream_of_item k v = Raise AttributeError.
Proof.
  unfold stream_of_item, walkable.
  destruct v as [| | | | |d| | | | |]; cbn; try discriminate.
  destruct (dict_lookup (lit "meta") d) as [[| | | | |m| | | | |]|]; cbn;
    try discriminate; try reflexivity.
  destruct (dict_lookup (lit "dagster") m) as [[| | | | |g| | | | |]|]; cbn;
    try discriminate; reflexivity.
Qed.

Lemma mapM_walkable (items : dict) :
  forallb walkable (map snd items) = true ->
  mapM (fun kv => stream_of_item (fst kv) (snd kv)) items
  = Ok (map logical_stream items).
Proof.
  induction items as [|[k v] rest IH]; cbn; [reflexivity|].
  intros H. apply andb_prop in H as [Hv Hrest].
  rewrite (stream_of_item_walkable k v Hv). cbn.
  rewrite (IH Hrest). reflexivity.
Qed.

Lemma same_up_to_order_trans {A : Type} (r1 r2 r3 : result (list A)) :
  same_up_to_order r1 r2 -> same_up_to_order r2 r3 ->
  same_up_to_order r1 r3.
Proof.
  destruct r1, r2, r3; cbn; try tauto. apply Permutation_trans.
Qed.

(** Running a fallible function over a reordered list gives the
    reordered results, or fails in both orders. *)
Lemma mapM_Permutation {A B : Type} (f : A -> result B) (l l' : list A) :
  Permutation l l' -> same_up_to_order (mapM f l) (mapM f l').
Proof.
  induction 1 as [|x l l' _ IH|x y l|l1 l2 l3 _ IH12 _ IH23].
  - cbn. constructor.
  - cbn. destruct (f x); cbn; [|exact I].
    destruct (mapM f l), (mapM f l'); cbn in *; try tauto.
    now constructor.
  - cbn. destruct (f x), (f y); cbn; try exact I.
    destruct (mapM f l); cbn; [|exact I]. apply perm_swap.
  - eapply same_up_to_order_trans; eassumption.
Qed.

Lemma same_up_to_order_bind {A B : Type} (r r' : result (list A))
    (f : A -> result B) :
  same_up_to_order r r' ->
  same_up_to_order (l <- r ;; mapM f l) (l <- r' ;; mapM f l).
Proof.
  destruct r as [l|e], r' as [l'|e']; cbn; try tauto.
  apply mapM_Permutation.
Qed.

Lemma same_up_to_order_map {A B : Type} (g : A -> B)
    (r r' : result (list A)) :
  same_up_to_order r r' ->
  same_up_to_order (l <- r ;; Ok (map g l)) (l <- r' ;; Ok (map g l)).
Proof.
  destruct r as [l|e], r' as [l'|e']; cbn; try tauto.
  apply Permutation_map.
Qed.

(** [sling_assets] on a config whose streams are [items]. *)
Lemma sling_assets_unfold (cfg : pyval) (items : dict)
    (t : SlingTranslator) (gn cv : option str) :
  py_getitem cfg (lit "streams") = Ok (VDict items) ->
  sling_assets cfg t gn cv
  = (ks <- mapM (fun kv => stream_of_item (fst kv) (snd kv)) items ;;
     mapM (spec_of_stream t gn cv) ks).
Proof.
  intros H. unfold sling_assets, validate_replication,
    get_streams_from_replication.
  destruct cfg as [| | | | |d| | | | |]; try discriminate.
  cbn in H |- *.
  destruct (dict_lookup (lit "streams") d) as [x|] eqn:E; [|discriminate].
  injection H as ->. cbn. rewrite E. cbn. rewrite streams_loop_mapM.
  destruct (mapM _ items) as [ks|e]; cbn; [|reflexivity].
  rewrite specs_loop_mapM.
  destruct (mapM _ ks); reflexivity.
Qed.

End LoopFacts.

(* ===================================================================== *)
(** ** Sanitization *)
(* ===================================================================== *)

(** C3, as stated, fails: sanitizing the 13-character name
    [weird_name] does not give [_weird_name__], because the two double
    quotes are deleted and leave no underscore behind. *)
Lemma sanitize_weird_name_not_padded :
  sanitize weird_name <> Ok (lit "_weird_name__").
Proof. intros H. vm_compute in H. discriminate H. Qed.

(** C3, amended: the name [weird_name] has 13 characters, starts and
    ends with a double quote, and sanitizes to exactly [weird_name_]:
    the quotes vanish, the space and the exclamation mark become one
    underscore each. *)
Theorem sanitize_weird_name :
  List.length weird_name = 13
  /\ hd_error weird_name = Some dquote
  /\ last weird_name 0%N = dquote
  /\ sanitize weird_name = Ok (lit "weird_name_").
Proof. repeat split. Qed.

(** C4: for every string, [sanitize] returns the string obtained by
    deleting the double quotes and then putting exactly one underscore
    for each remaining character outside [[A-Za-z0-9_.]], so the
    result is as long as the string without its quotes; a string of
    allowed characters only, such as [public.accounts], comes back
    unchanged. *)
Theorem sanitize_refines_spec (s : str) :
  sanitize s = Ok (sanitize_spec s)
  /\ List.length (sanitize_spec s) = List.length (filter not_dquote s)
  /\ (forallb allowed s = true -> sanitize s = Ok s)
  /\ sanitize (lit "public.accounts") = Ok (lit "public.accounts").
Proof.
  split; [apply sanitize_eq_spec|].
  split; [unfold sanitize_spec; apply length_map|].
  split; [|reflexivity].
  intros H. rewrite sanitize_eq_spec, (sanitize_spec_fixes_allowed s H).
  reflexivity.
Qed.

Lemma sanitize_refines_spec_witness :
  forallb allowed (lit "public.accounts") = true
  /\ sanitize (lit "public.accounts") = Ok (lit "public.accounts").
Proof.
  split; [reflexivity|].
  apply (proj1 (proj2 (proj2 (sanitize_refines_spec (lit "public.accounts"))))).
  reflexivity.
Defined.

(** C5: [sanitize] is total and idempotent: on every string it returns
    a string (it never raises), and sanitizing that result again
    returns it unchanged. *)
Theorem sanitize_total_idempotent (s : str) :
  exists r : str, sanitize s = Ok r /\ sanitize r = Ok r.
Proof.
  exists (sanitize_spec s). split; [apply sanitize_eq_spec|].
  rewrite sanitize_eq_spec.
  rewrite (sanitize_spec_fixes_allowed _ (sanitize_spec_allowed s)).
  reflexivity.
Qed.

(* ===================================================================== *)
(** ** Identifiers of a stream name *)
(* ===================================================================== *)

(** C6: for every stream name [s] and prefix [p], the target identifier
    is [p] followed by the segments of the split of [sanitize s] on the
    dot, and the prefix is [target] when none is given.  The segments
    contain no dot and joined by dots give [sanitize s] back.  For
    [public.accounts] the identifier is [target], [public],
    [accounts]. *)
Theorem target_identifier_prefix_split (s p : str) :
  exists sanitized segs,
    sanitize s = Ok sanitized
    /\ py_split sanitized (lit ".") = Ok segs
    /\ join (lit ".") segs = sanitized
    /\ Forall (fun seg => ~ In dot seg) segs
    /\ target_identifier s (Some p) = Ok (mkAssetKey (p :: segs))
    /\ target_identifier s None = Ok (mkAssetKey (lit "target" :: segs))
    /\ target_identifier (lit "public.accounts") None
       = Ok (mkAssetKey [lit "target"; lit "public"; lit "accounts"]).
Proof.
  exists (sanitize_spec s), (split_from [dot] (sanitize_spec s) 0 []).
  split; [apply sanitize_eq_spec|].
  split; [apply py_split_dot|].
  split; [apply (join_split_single dot (sanitize_spec s) [])|].
  split; [apply split_single_no_sep; intros []|].
  unfold target_identifier. cbn [tr_get_asset_key_for_target
    DagsterSlingTranslator.instance].
  unfold DagsterSlingTranslator.get_asset_key_for_target.
  fold (sanitize s). rewrite sanitize_eq_spec. cbn [bind].
  rewrite py_split_dot. cbn [bind app].
  repeat split.
Qed.

(** C7: for every stream name [s], the dependency identifier is the
    list of segments of the split of [sanitize s] on the dot, with no
    prefix segment.  For [public.accounts] it is [public],
    [accounts]. *)
Theorem dependency_identifier_split (s : str) :
  exists sanitized segs,
    sanitize s = Ok sanitized
    /\ py_split sanitized (lit ".") = Ok segs
    /\ join (lit ".") segs = sanitized
    /\ Forall (fun seg => ~ In dot seg) segs
    /\ dependency_identifier s = Ok (mkAssetKey segs)
    /\ dependency_identifier (lit "public.accounts")
       = Ok (mkAssetKey [lit "public"; lit "accounts"]).
Proof.
  exists (sanitize_spec s), (split_from [dot] (sanitize_spec s) 0 []).
  split; [apply sanitize_eq_spec|].
  split; [apply py_split_dot|].
  split; [apply (join_split_single dot (sanitize_spec s) [])|].
  split; [apply split_single_no_sep; intros []|].
  unfold dependency_identifier. cbn [tr_get_deps_asset_key
    DagsterSlingTranslator.instance].
  unfold DagsterSlingTranslator.get_deps_asset_key.
  fold (sanitize s). rewrite sanitize_eq_spec. cbn [bind].
  rewrite py_split_dot. cbn [bind].
  repeat split.
Qed.

(* ===================================================================== *)
(** ** Stream enumeration *)
(* ===================================================================== *)

Lemma get_streams_of_items (cfg : pyval) (items : dict) :
  py_getitem cfg (lit "streams") = Ok (VDict items) ->
  get_streams_from_replication cfg
  = mapM (fun kv => stream_of_item (fst kv) (snd kv)) items.
Proof.
  intros H. unfold get_streams_from_replication. rewrite H. cbn.
  rewrite streams_loop_mapM.
  destruct (mapM _ items); reflexivity.
Qed.

Lemma getitem_replication_of (items : dict) :
  py_getitem (replication_of items) (lit "streams") = Ok (VDict items).
Proof. reflexivity. Qed.

Lemma mapM_app {A B : Type} (f : A -> result B) (l l' : list A) :
  mapM f (l ++ l')
  = (xs <- mapM f l ;; ys <- mapM f l' ;; Ok (xs ++ ys)).
Proof.
  induction l as [|x l IH]; cbn.
  - destruct (mapM f l'); reflexivity.
  - destruct (f x); cbn; [|reflexivity]. rewrite IH.
    destruct (mapM f l); cbn; [|reflexivity].
    destruct (mapM f l'); reflexivity.
Qed.

Lemma declared_override_walkable (v ov : pyval) :
  declared_override v = Some ov -> walkable v = true.
Proof.
  unfold declared_override, walkable.
  destruct v as [| | | | |d| | | | |]; try discriminate.
  destruct (dict_lookup (lit "meta") d) as [[| | | | |m| | | | |]|]; try discriminate.
  destruct (dict_lookup (lit "dagster") m) as [[| | | | |g| | | | |]|];
    try discriminate.
  reflexivity.
Qed.

(** C8, as stated, fails: an entry whose descriptor carries the empty
    string at [meta.dagster.asset_key] is enumerated under its raw key,
    not under the override; and an entry whose [meta] is [None] makes
    the enumeration raise, so no identifier is produced at all. *)
Lemma enumeration_not_always_override :
  get_streams_from_replication (users_with_asset_key (VStr []))
  = Ok [VStr (lit "public.users")]
  /\ ~ Forall2 claimed_stream
         [(lit "public.users", dagster_meta (lit "asset_key") (VStr []))]
         [VStr (lit "public.users")]
  /\ get_streams_from_replication
       (replication_of [(lit "public.users", VDict [(lit "meta", VNone)])])
     = Raise AttributeError.
Proof.
  split; [reflexivity|]. split; [|reflexivity].
  intros H. inversion H as [|? ? ? ? Hc _]; subst.
  vm_compute in Hc. discriminate Hc.
Qed.

(** C8, amended: when every structured descriptor can be walked (its
    [meta], if present, is a mapping, and so is the [dagster] entry of
    that mapping, if present), the enumeration returns exactly one
    logical stream identifier per entry of the streams mapping, in the
    mapping's order, none filtered out: the raw key for an entry whose
    descriptor is not a structured mapping or carries no
    [meta.dagster.asset_key]; the override value itself, string or
    list, for an entry that carries a non-empty (truthy) one. *)
Theorem enumeration_one_per_entry (cfg : pyval) (items : dict) :
  py_getitem cfg (lit "streams") = Ok (VDict items) ->
  forallb walkable (map snd items) = true ->
  exists ids,
    get_streams_from_replication cfg = Ok ids
    /\ List.length ids = List.length items
    /\ Forall2
         (fun entry id =>
            (isinstance_dict (snd entry) = false -> id = VStr (fst entry))
            /\ (declared_override (snd entry) = None -> id = VStr (fst entry))
            /\ (forall ov, declared_override (snd entry) = Some ov ->
                           truthy ov = true -> id = ov))
         items ids.
Proof.
  intros Hs Hw. exists (map logical_stream items).
  rewrite (get_streams_of_items cfg Hs), (mapM_walkable items Hw).
  split; [reflexivity|]. split; [apply length_map|].
  clear. induction items as [|[k v] rest IH]; cbn [map]; constructor;
    [|exact IH].
  unfold logical_stream. cbn [fst snd]. repeat split.
  - intros Hd. destruct v; try reflexivity. discriminate Hd.
  - intros ->. reflexivity.
  - intros ov -> ->. reflexivity.
Qed.

Lemma enumeration_one_per_entry_witness :
  py_getitem (replication_of two_streams) (lit "streams")
  = Ok (VDict two_streams)
  /\ forallb walkable (map snd two_streams) = true
  /\ exists ids,
       get_streams_from_replication (replication_of two_streams) = Ok ids
       /\ List.length ids = 2.
Proof.
  split; [reflexivity|]. split; [reflexivity|].
  destruct (@enumeration_one_per_entry (replication_of two_streams)
              two_streams eq_refl eq_refl) as [ids [H [Hlen _]]].
  exists ids. split; [exact H | exact Hlen].
Defined.

(** C10: when a structured descriptor carries a falsy value (such as
    the empty string or the empty list) at [meta.dagster.asset_key],
    the override is ignored: the entry is enumerated under its raw key.
    A config with that entry alone enumerates to the raw key alone; in
    a config whose other descriptors can be walked, the entry's
    position holds the raw key, between the identifiers of the entries
    before and after it; and the whole enumeration is the one obtained
    with any descriptor for that entry that carries no override. *)
Theorem falsy_override_ignored (key : str) (descriptor ov : pyval) :
  declared_override descriptor = Some ov ->
  truthy ov = false ->
  stream_of_item key descriptor = Ok (VStr key)
  /\ get_streams_from_replication (replication_of [(key, descriptor)])
     = Ok [VStr key]
  /\ (forall (cfg : pyval) (before after : dict),
        py_getitem cfg (lit "streams")
        = Ok (VDict (before ++ (key, descriptor) :: after)) ->
        forallb walkable (map snd before) = true ->
        forallb walkable (map snd after) = true ->
        get_streams_from_replication cfg
        = Ok (map logical_stream before ++ VStr key
              :: map logical_stream after))
  /\ forall (plain : pyval) (before after : dict),
       walkable plain = true ->
       declared_override plain = None ->
       get_streams_from_replication
         (replication_of (before ++ (key, descriptor) :: after))
       = get_streams_from_replication
           (replication_of (before ++ (key, plain) :: after)).
Proof.
  intros Hov Hfalsy.
  assert (Hd : stream_of_item key descriptor = Ok (VStr key)).
  { rewrite (stream_of_item_walkable key descriptor
               (declared_override_walkable descriptor Hov)).
    unfold logical_stream. cbn [fst snd]. rewrite Hov, Hfalsy. reflexivity. }
  split; [exact Hd|]. split; [|split].
  - rewrite (get_streams_of_items _ (getitem_replication_of _)).
    cbn [mapM fst snd]. rewrite Hd. reflexivity.
  - intros cfg before after Hs Hb Ha.
    rewrite (get_streams_of_items cfg Hs), mapM_app.
    cbn [mapM fst snd].
    rewrite Hd, (mapM_walkable before Hb), (mapM_walkable after Ha).
    reflexivity.
  - intros plain before after Hw Hnone.
    rewrite !(get_streams_of_items _ (getitem_replication_of _)).
    rewrite !mapM_app. cbn [mapM fst snd]. rewrite Hd.
    rewrite (stream_of_item_walkable key plain Hw).
    unfold logical_stream. cbn [fst snd]. rewrite Hnone. reflexivity.
Qed.

Lemma falsy_override_ignored_witness :
  (declared_override (dagster_meta (lit "asset_key") (VStr [])) = Some (VStr [])
   /\ truthy (VStr []) = false
   /\ get_streams_from_replication (users_with_asset_key (VStr []))
      = Ok [VStr (lit "public.users")])
  /\ (declared_override (dagster_meta (lit "asset_key") (VList []))
      = Some (VList [])
      /\ truthy (VList []) = false
      /\ get_streams_from_replication (users_with_asset_key (VList []))
         = Ok [VStr (lit "public.users")]).
Proof.
  split; (split; [reflexivity|]; split; [reflexivity|]).
  - exact (proj1 (proj2 (@falsy_override_ignored (lit "public.users")
                           (dagster_meta (lit "asset_key") (VStr []))
                           (VStr []) eq_refl eq_refl))).
  - exact (proj1 (proj2 (@falsy_override_ignored (lit "public.users")
                           (dagster_meta (lit "asset_key") (VList []))
                           (VList []) eq_refl eq_refl))).
Defined.

(* ===================================================================== *)
(** ** The translation as a whole *)
(* ===================================================================== *)

Lemma translation_pairs_of_items (t : SlingTranslator) (cfg : pyval)
    (items : dict) :
  py_getitem cfg (lit "streams") = Ok (VDict items) ->
  translation_pairs t cfg
  = (specs <- (ks <- mapM (fun kv => stream_of_item (fst kv) (snd kv)) items ;;
               mapM (spec_of_stream t None None) ks) ;;
     Ok (pairs specs)).
Proof.
  intros H. unfold translation_pairs.
  rewrite (sling_assets_unfold cfg t None None H). reflexivity.
Qed.

(** C9: the translation is deterministic and order-independent, for the
    default translator and for any substituted one.  Two configs whose
    stream entries are the same up to iteration order either both fail,
    or give lists of (target identifier, dependency identifier) pairs
    that are permutations of each other, hence the same set of pairs;
    and two configs with the same stream entries, such as a config and
    an identical copy of it, give the same outcome. *)
Theorem translation_order_independent (t : SlingTranslator)
    (cfg cfg' : pyval) (items items' : dict) :
  py_getitem cfg (lit "streams") = Ok (VDict items) ->
  py_getitem cfg' (lit "streams") = Ok (VDict items') ->
  Permutation items items' ->
  same_up_to_order (translation_pairs t cfg) (translation_pairs t cfg')
  /\ (forall ps ps',
        translation_pairs t cfg = Ok ps ->
        translation_pairs t cfg' = Ok ps' ->
        forall p, In p ps <-> In p ps')
  /\ (items = items' -> translation_pairs t cfg = translation_pairs t cfg').
Proof.
  intros H H' Hperm.
  assert (Hsame : same_up_to_order (translation_pairs t cfg)
                    (translation_pairs t cfg')).
  { rewrite (translation_pairs_of_items t cfg H),
      (translation_pairs_of_items t cfg' H').
    unfold pairs. apply same_up_to_order_map, same_up_to_order_bind.
    apply mapM_Permutation, Hperm. }
  split; [exact Hsame|]. split.
  - intros ps ps' E E' p. rewrite E, E' in Hsame. cbn in Hsame.
    split; apply Permutation_in; [|symmetry]; exact Hsame.
  - intros ->. rewrite (translation_pairs_of_items t cfg H),
      (translation_pairs_of_items t cfg' H'). reflexivity.
Qed.

Lemma translation_order_independent_witness :
  Permutation accounts_then_users users_then_accounts
  /\ same_up_to_order
       (translation_pairs DagsterSlingTranslator.instance
          (replication_of accounts_then_users))
       (translation_pairs DagsterSlingTranslator.instance
          (replication_of users_then_accounts)).
Proof.
  split; [apply perm_swap|].
  exact (proj1 (@translation_order_independent DagsterSlingTranslator.instance
                  (replication_of accounts_then_users)
                  (replication_of users_then_accounts)
                  accounts_then_users users_then_accounts
                  eq_refl eq_refl (perm_swap _ _ []))).
Defined.

(** Five streams, one of them quoted and with a space, translate to
    the five distinct targets that the test of the decorator expects. *)
Example five_streams_targets :
  translation_pairs DagsterSlingTranslator.instance
    (replication_of
       [(lit "public.accounts", VNone);
        ([112; 117; 98; 108; 105; 99; 46; 34]%N ++ lit "foo users" ++ [dquote],
         VNone);
        (lit "public.Transactions", VNone);
        (lit "public.all_users", VNone);
        (lit "public.finance_departments_old", VNone)])
  = Ok (map (fun name =>
               (mkAssetKey [lit "target"; lit "public"; name],
                mkAssetKey [lit "public"; name]))
          [lit "accounts"; lit "foo_users"; lit "Transactions";
           lit "all_users"; lit "finance_departments_old"]).
Proof. vm_compute. reflexivity. Qed.

(** A substituted policy takes over both derivations, and a name
    outside its table is a [KeyError]. *)
Example custom_translator_replaces_derivation :
  translation_pairs CustomSlingTranslator.instance
    (replication_of [(lit "stream1", VNone); (lit "stream2", VNone)])
  = Ok [(mkAssetKey [lit "asset1"], mkAssetKey [lit "asset1"]);
        (mkAssetKey [lit "asset2"], mkAssetKey [lit "asset2"])]
  /\ translation_pairs CustomSlingTranslator.instance
       (replication_of [(lit "public.accounts", VNone)])
     = Raise KeyError.
Proof. split; reflexivity. Qed.

(* ===================================================================== *)
(** ** Overrides in the stream metadata *)
(* ===================================================================== *)

(** C1: the docstring of [get_asset_key_for_target] says the metadata
    [asset_key] specifies the asset key of the stream, and the claim
    says the target identifier equals the override itself.  The code
    instead feeds the override to the translator as if it were a
    stream name: [mydb_users] becomes [target], [mydb_users]; a dotted
    override is split; a character outside the class is replaced; and
    a list-valued override raises [AttributeError]. *)
Theorem asset_key_override_is_retranslated :
  translation_pairs DagsterSlingTranslator.instance
    (users_with_asset_key (VStr (lit "mydb_users")))
  = Ok [(mkAssetKey [lit "target"; lit "mydb_users"],
         mkAssetKey [lit "mydb_users"])]
  /\ translation_pairs DagsterSlingTranslator.instance
       (users_with_asset_key (VStr (lit "my db.users")))
     = Ok [(mkAssetKey [lit "target"; lit "my_db"; lit "users"],
            mkAssetKey [lit "my_db"; lit "users"])]
  /\ translation_pairs DagsterSlingTranslator.instance
       (users_with_asset_key (VList [VStr (lit "mydb"); VStr (lit "users")]))
     = Raise AttributeError.
Proof. repeat split. Qed.

(** C2: the docstring of [get_deps_asset_key] says the metadata [deps]
    specifies the dependency asset key of the stream, and the claim
    says the dependency identifier equals the override.  The code
    never reads [meta.dagster.deps]: with [deps] set to
    [sourcedb_users] the stream [public.users] still depends on
    [public], [users], exactly as with no metadata at all. *)
Theorem deps_override_is_not_read :
  translation_pairs DagsterSlingTranslator.instance
    (users_with_deps (VStr (lit "sourcedb_users")))
  = Ok [(mkAssetKey [lit "target"; lit "public"; lit "users"],
         mkAssetKey [lit "public"; lit "users"])]
  /\ translation_pairs DagsterSlingTranslator.instance
       (users_with_deps (VStr (lit "sourcedb_users")))
     = translation_pairs DagsterSlingTranslator.instance
         (replication_of [(lit "public.users", VNone)]).
Proof. repeat split. Qed.

(* ===================================================================== *)
(** ** Further facts about the string operations *)
(* ===================================================================== *)

Section MoreStringFacts.

Lemma sanitize_spec_app (a b : str) :
  sanitize_spec (a ++ b) = sanitize_spec a ++ sanitize_spec b.
Proof. unfold sanitize_spec. rewrite filter_app, map_app. reflexivity. Qed.

Lemma sanitize_spec_dquote (s : str) :
  sanitize_spec (dquote :: s) = sanitize_spec s.
Proof. reflexivity. Qed.

Lemma sanitize_spec_no_dquote (s : str) : ~ In dquote (sanitize_spec s).
Proof.
  intros H.
  pose proof (sanitize_spec_allowed s) as Ha.
  rewrite forallb_forall in Ha. specialize (Ha _ H). discriminate Ha.
Qed.

Lemma dots_sanitize_spec (s : str) : dots (sanitize_spec s) = dots s.
Proof.
  unfold dots, sanitize_spec.
  induction s as [|c t IH]; [reflexivity|].
  cbn [filter]. unfold not_dquote at 1.
  destruct (N.eqb c dquote) eqn:Eq; cbn [negb].
  - apply N.eqb_eq in Eq. subst c. cbn [count_occ].
    destruct (N.eq_dec dquote dot) as [E|_]; [discriminate E | exact IH].
  - cbn [map count_occ]. rewrite IH.
    destruct (N.eq_dec c dot) as [->|Hc].
    + cbn. destruct (N.eq_dec dot dot); [reflexivity | contradiction].
    + destruct (allowed c).
      * destruct (N.eq_dec c dot); [contradiction | reflexivity].
      * destruct (N.eq_dec underscore dot) as [E|_];
          [discriminate E | reflexivity].
Qed.

Lemma length_split_single (d : char) (s cur : str) :
  List.length (split_from [d] s 0 cur) = S (count_occ N.eq_dec s d).
Proof.
  revert cur. induction s as [|c t IH]; intros cur; [reflexivity|].
  cbn [split_from count_occ]. rewrite startswith_single.
  destruct (N.eq_dec c d) as [->|Hc].
  - rewrite N.eqb_refl. cbn [List.length Nat.sub]. rewrite IH. reflexivity.
  - destruct (N.eqb d c) eqn:E; [|apply IH].
    apply N.eqb_eq in E. congruence.
Qed.

Lemma split_single_chars (d : char) (s cur seg : str) (c : char) :
  In seg (split_from [d] s 0 cur) -> In c seg -> In c s \/ In c cur.
Proof.
  revert cur. induction s as [|x t IH]; intros cur Hseg Hc.
  - cbn in Hseg. destruct Hseg as [<-|[]]. right. apply in_rev. exact Hc.
  - cbn [split_from] in Hseg. rewrite startswith_single in Hseg.
    destruct (N.eqb d x).
    + cbn [List.length Nat.sub] in Hseg. destruct Hseg as [<-|Hseg].
      * right. apply in_rev. exact Hc.
      * destruct (IH [] Hseg Hc) as [H|[]]. left. right. exact H.
    + destruct (IH (x :: cur) Hseg Hc) as [H|[H|H]].
      * left. right. exact H.
      * left. left. exact H.
      * right. exact H.
Qed.

(** The default derivations, in terms of the sanitized name. *)
Lemma target_identifier_eq (s : str) (p : option str) :
  target_identifier s p
  = Ok (mkAssetKey
          (match p with Some x => x | None => lit "target" end
           :: split_from [dot] (sanitize_spec s) 0 [])).
Proof.
  unfold target_identifier. cbn [tr_get_asset_key_for_target
    DagsterSlingTranslator.instance].
  unfold DagsterSlingTranslator.get_asset_key_for_target.
  fold (sanitize s). rewrite sanitize_eq_spec. cbn [bind].
  rewrite py_split_dot. reflexivity.
Qed.

Lemma dependency_identifier_eq (s : str) :
  dependency_identifier s
  = Ok (mkAssetKey (split_from [dot] (sanitize_spec s) 0 [])).
Proof.
  unfold dependency_identifier. cbn [tr_get_deps_asset_key
    DagsterSlingTranslator.instance].
  unfold DagsterSlingTranslator.get_deps_asset_key.
  fold (sanitize s). rewrite sanitize_eq_spec. cbn [bind].
  rewrite py_split_dot. reflexivity.
Qed.

Lemma split_single_injective (d : char) (s s' : str) :
  split_from [d] s 0 [] = split_from [d] s' 0 [] -> s = s'.
Proof.
  intros H.
  pose proof (join_split_single d s []) as J.
  pose proof (join_split_single d s' []) as J'.
  rewrite H in J. cbn in J, J'. congruence.
Qed.

End MoreStringFacts.

(* ===================================================================== *)
(** ** Further properties of the default naming policy *)
(* ===================================================================== *)

(** X1: the result of [sanitize_stream_name] on a string is made of
    characters of [[A-Za-z0-9_.]] only, holds no double quote, and is
    never longer than the name. *)
Theorem sanitize_output_alphabet (s : str) :
  exists r : str,
    sanitize s = Ok r
    /\ forallb allowed r = true
    /\ ~ In dquote r
    /\ List.length r <= List.length s.
Proof.
  exists (sanitize_spec s).
  split; [apply sanitize_eq_spec|].
  split; [apply sanitize_spec_allowed|].
  split; [apply sanitize_spec_no_dquote|].
  unfold sanitize_spec. rewrite length_map. apply filter_length_le.
Qed.

(** X2: sanitization works character by character, so the sanitized
    form of a concatenation is the concatenation of the sanitized
    forms. *)
Theorem sanitize_concat (a b : str) :
  exists ra rb : str,
    sanitize a = Ok ra
    /\ sanitize b = Ok rb
    /\ sanitize (a ++ b) = Ok (ra ++ rb).
Proof.
  exists (sanitize_spec a), (sanitize_spec b).
  rewrite !sanitize_eq_spec, sanitize_spec_app. repeat split.
Qed.

(** X3: a double quote anywhere in a stream name leaves no trace: the
    name with the quote and the name without it have the same
    sanitized form, the same target key and the same dependency key. *)
Theorem quote_leaves_no_trace (s t : str) (p : option str) :
  sanitize (s ++ dquote :: t) = sanitize (s ++ t)
  /\ target_identifier (s ++ dquote :: t) p = target_identifier (s ++ t) p
  /\ dependency_identifier (s ++ dquote :: t) = dependency_identifier (s ++ t).
Proof.
  assert (E : sanitize_spec (s ++ dquote :: t) = sanitize_spec (s ++ t)).
  { rewrite !sanitize_spec_app, sanitize_spec_dquote. reflexivity. }
  rewrite !sanitize_eq_spec, !target_identifier_eq, !dependency_identifier_eq,
    E. repeat split.
Qed.

(** X4: for every stream name, the target key is the dependency key
    with the prefix put in front, and the dependency key has one
    segment more than the name has dots; so neither key is ever empty,
    not even for the empty name. *)
Theorem key_shape (s : str) (p : option str) :
  exists k d : AssetKey,
    target_identifier s p = Ok k
    /\ dependency_identifier s = Ok d
    /\ path k = match p with Some x => x | None => lit "target" end :: path d
    /\ List.length (path d) = 1 + dots s
    /\ List.length (path k) = 2 + dots s.
Proof.
  eexists. eexists.
  split; [apply target_identifier_eq|].
  split; [apply dependency_identifier_eq|].
  cbn [path List.length]. rewrite length_split_single.
  fold (dots (sanitize_spec s)). rewrite dots_sanitize_spec.
  repeat split.
Qed.

(** X5: every segment of a derived dependency key is made of letters,
    digits and underscores only: no dot, no quote, no other
    punctuation survives into a segment. *)
Theorem segments_are_clean (s : str) :
  exists d : AssetKey,
    dependency_identifier s = Ok d
    /\ Forall (fun seg => forallb segment_char seg = true) (path d).
Proof.
  eexists. split; [apply dependency_identifier_eq|].
  cbn [path]. apply Forall_forall. intros seg Hseg.
  apply forallb_forall. intros c Hc. unfold segment_char.
  apply andb_true_intro. split.
  - destruct (split_single_chars dot (sanitize_spec s) [] seg c Hseg Hc)
      as [H|[]].
    pose proof (sanitize_spec_allowed s) as Ha.
    rewrite forallb_forall in Ha. exact (Ha c H).
  - pose proof (split_single_no_sep dot (sanitize_spec s) []
                  (fun H : In dot [] => H)) as Hno.
    rewrite Forall_forall in Hno. specialize (Hno seg Hseg).
    destruct (N.eqb c dot) eqn:E; [|reflexivity].
    apply N.eqb_eq in E. subst c. contradiction.
Qed.

(** X6: two stream names get the same target key (under the same
    prefix) exactly when they have the same sanitized form, and
    likewise for the dependency key: splitting on dots loses
    nothing. *)
Theorem keys_collide_iff_sanitized_equal (s s' : str) (p : option str) :
  (target_identifier s p = target_identifier s' p <-> sanitize s = sanitize s')
  /\ (dependency_identifier s = dependency_identifier s'
      <-> sanitize s = sanitize s').
Proof.
  rewrite !target_identifier_eq, !dependency_identifier_eq, !sanitize_eq_spec.
  split; split; intros H.
  - injection H as H. apply split_single_injective in H. congruence.
  - injection H as ->. reflexivity.
  - injection H as H. apply split_single_injective in H. congruence.
  - injection H as ->. reflexivity.
Qed.

Lemma keys_collide_iff_sanitized_equal_witness :
  sanitize (lit "foo bar") = sanitize (lit "foo_bar")
  /\ target_identifier (lit "foo bar") None
     = target_identifier (lit "foo_bar") None.
Proof.
  split; [reflexivity|].
  apply (proj1 (@keys_collide_iff_sanitized_equal (lit "foo bar")
                  (lit "foo_bar") None)).
  reflexivity.
Defined.

(* ===================================================================== *)
(** ** Further facts about the loops *)
(* ===================================================================== *)

Section MoreLoopFacts.

Lemma mapM_length {A B : Type} (f : A -> result B) (l : list A) (ys : list B) :
  mapM f l = Ok ys -> List.length ys = List.length l.
Proof.
  revert ys. induction l as [|x l IH]; intros ys; cbn.
  - intros [= <-]. reflexivity.
  - destruct (f x); cbn; [|discriminate].
    destruct (mapM f l) as [zs|]; cbn; [|discriminate].
    intros [= <-]. cbn. rewrite (IH zs eq_refl). reflexivity.
Qed.

Lemma mapM_Forall {A B : Type} (f : A -> result B) (P : B -> Prop)
    (l : list A) (ys : list B) :
  (forall x y, f x = Ok y -> P y) ->
  mapM f l = Ok ys -> Forall P ys.
Proof.
  intros HP. revert ys. induction l as [|x l IH]; intros ys; cbn.
  - intros [= <-]. constructor.
  - destruct (f x) as [y|] eqn:E; cbn; [|discriminate].
    destruct (mapM f l) as [zs|]; cbn; [|discriminate].
    intros [= <-]. constructor; [exact (HP x y E) | exact (IH zs eq_refl)].
Qed.

Lemma mapM_Forall2_ext {A B : Type} (f : A -> result B) (l l' : list A) :
  Forall2 (fun x x' => f x = f x') l l' -> mapM f l = mapM f l'.
Proof.
  induction 1 as [|x x' l l' E _ IH]; [reflexivity|].
  cbn. rewrite E, IH. reflexivity.
Qed.

Lemma mapM_some_not_walkable (items : dict) :
  forallb walkable (map snd items) = false ->
  mapM (fun kv => stream_of_item (fst kv) (snd kv)) items
  = Raise AttributeError.
Proof.
  induction items as [|[k v] rest IH]; cbn; [discriminate|].
  destruct (walkable v) eqn:Hv; cbn.
  - intros H. rewrite (stream_of_item_walkable k v Hv). cbn.
    rewrite (IH H). reflexivity.
  - intros _. rewrite (stream_of_item_not_walkable k v Hv). reflexivity.
Qed.

Lemma same_entry_stream (e e' : str * pyval) :
  same_entry e e' ->
  stream_of_item (fst e) (snd e) = stream_of_item (fst e') (snd e').
Proof.
  destruct e as [k v], e' as [k' v']. unfold same_entry. cbn [fst snd].
  intros [<- H]. unfold stream_of_item.
  destruct v, v'; cbn in H |- *; try reflexivity; try contradiction.
  rewrite H. reflexivity.
Qed.

(** The spec built by the default translator for a stream that is a
    string. *)
Lemma default_spec_of_string (gn cv : option str) (name : str) :
  spec_of_stream DagsterSlingTranslator.instance gn cv (VStr name)
  = Ok {| key := mkAssetKey (lit "target"
                               :: split_from [dot] (sanitize_spec name) 0 []);
          deps := mkAssetKey (split_from [dot] (sanitize_spec name) 0 []);
          group_name := gn; code_version := cv |}.
Proof.
  unfold spec_of_stream.
  fold (target_identifier name None). fold (dependency_identifier name).
  rewrite target_identifier_eq, dependency_identifier_eq. reflexivity.
Qed.

Lemma default_spec_of_non_string (gn cv : option str) (v : pyval) :
  is_str v = false ->
  spec_of_stream DagsterSlingTranslator.instance gn cv v
  = Raise (replace_failure v).
Proof. intros H. destruct v; try discriminate H; reflexivity. Qed.

Lemma mapM_default_strings (gn cv : option str) (ks : list pyval) :
  forallb is_str ks = true ->
  exists specs,
    mapM (spec_of_stream DagsterSlingTranslator.instance gn cv) ks = Ok specs.
Proof.
  induction ks as [|v ks IH]; cbn [forallb mapM]; [eexists; reflexivity|].
  intros H. apply andb_prop in H as [Hv Hks].
  destruct v; try discriminate Hv.
  destruct (IH Hks) as [specs E].
  rewrite default_spec_of_string, E. cbn [bind]. eexists. reflexivity.
Qed.

Lemma mapM_default_first_non_string (gn cv : option str)
    (before : list pyval) (v : pyval) (after : list pyval) :
  forallb is_str before = true ->
  is_str v = false ->
  mapM (spec_of_stream DagsterSlingTranslator.instance gn cv)
    (before ++ v :: after)
  = Raise (replace_failure v).
Proof.
  intros Hb Hv. rewrite mapM_app.
  destruct (mapM_default_strings gn cv before Hb) as [specs E].
  rewrite E. cbn [bind mapM].
  rewrite (default_spec_of_non_string gn cv v Hv). reflexivity.
Qed.

Lemma first_non_string (ks : list pyval) :
  forallb is_str ks = false ->
  exists before v after,
    ks = before ++ v :: after
    /\ forallb is_str before = true
    /\ is_str v = false.
Proof.
  induction ks as [|x ks IH]; cbn [forallb]; [discriminate|].
  destruct (is_str x) eqn:Hx; cbn [andb].
  - intros H. destruct (IH H) as [before [v [after [E [Hb Hv]]]]].
    exists (x :: before), v, after. subst ks. cbn [forallb app].
    rewrite Hx, Hb. repeat split. exact Hv.
  - intros _. exists [], x, ks. repeat split. exact Hx.
Qed.

Lemma translatable_split (items : dict) :
  forallb translatable items
  = forallb walkable (map snd items)
    && forallb is_str (map logical_stream items).
Proof.
  induction items as [|e rest IH]; [reflexivity|].
  cbn [forallb map]. rewrite IH. unfold translatable.
  destruct (walkable (snd e)), (is_str (logical_stream e)),
    (forallb walkable (map snd rest)); reflexivity.
Qed.

End MoreLoopFacts.

(* ===================================================================== *)
(** ** Further properties of the enumeration and of [sling_assets] *)
(* ===================================================================== *)

(** X8: how [get_streams_from_replication] fails on a config without
    usable streams: [TypeError] when the config is not a dict,
    [KeyError] when it is a dict without the key [streams], and
    [AttributeError] when the value under [streams] is not a dict. *)
Theorem get_streams_errors (cfg : pyval) :
  (isinstance_dict cfg = false ->
   get_streams_from_replication cfg = Raise TypeError)
  /\ (forall d, cfg = VDict d -> dict_lookup (lit "streams") d = None ->
      get_streams_from_replication cfg = Raise KeyError)
  /\ (forall d v, cfg = VDict d -> dict_lookup (lit "streams") d = Some v ->
      isinstance_dict v = false ->
      get_streams_from_replication cfg = Raise AttributeError).
Proof.
  unfold get_streams_from_replication. repeat split.
  - intros H. destruct cfg; try discriminate H; reflexivity.
  - intros d -> H. cbn. rewrite H. reflexivity.
  - intros d v -> H Hv. cbn. rewrite H. cbn.
    destruct v; try discriminate Hv; reflexivity.
Qed.

Lemma get_streams_errors_witness :
  get_streams_from_replication (VList []) = Raise TypeError
  /\ get_streams_from_replication (VDict [(lit "source", VStr (lit "pg"))])
     = Raise KeyError
  /\ get_streams_from_replication (VDict [(lit "streams", VNone)])
     = Raise AttributeError.
Proof.
  split; [|split].
  - exact (proj1 (get_streams_errors (VList [])) eq_refl).
  - exact (proj1 (proj2 (get_streams_errors
                           (VDict [(lit "source", VStr (lit "pg"))])))
             _ eq_refl eq_refl).
  - exact (proj2 (proj2 (get_streams_errors (VDict [(lit "streams", VNone)])))
             _ _ eq_refl eq_refl eq_refl).
Defined.

(** X9: one structured descriptor whose [meta], or whose
    [meta.dagster], is present but not a mapping makes the whole
    enumeration raise [AttributeError]: no identifier is returned for
    the other entries either. *)
Theorem enumeration_all_or_nothing (cfg : pyval) (items : dict) :
  py_getitem cfg (lit "streams") = Ok (VDict items) ->
  forallb walkable (map snd items) = false ->
  get_streams_from_replication cfg = Raise AttributeError.
Proof.
  intros Hs Hw.
  rewrite (get_streams_of_items cfg Hs). apply mapM_some_not_walkable, Hw.
Qed.

Lemma enumeration_all_or_nothing_witness :
  get_streams_from_replication
    (replication_of
       [(lit "public.accounts", VNone);
        (lit "public.users", VDict [(lit "meta", VNone)])])
  = Raise AttributeError.
Proof.
  exact (@enumeration_all_or_nothing
           (replication_of
              [(lit "public.accounts", VNone);
               (lit "public.users", VDict [(lit "meta", VNone)])])
           [(lit "public.accounts", VNone);
            (lit "public.users", VDict [(lit "meta", VNone)])]
           eq_refl eq_refl).
Defined.

(** X10: the enumeration looks at nothing but the keys of the streams
    and the [meta] of their descriptors: two configs whose streams
    have, entry by entry, the same key and the same [meta] give the
    same outcome, whatever else the descriptors and the configs hold;
    and any descriptor that is not a dict counts as no descriptor. *)
Theorem enumeration_reads_only_meta (cfg cfg' : pyval) (items items' : dict) :
  py_getitem cfg (lit "streams") = Ok (VDict items) ->
  py_getitem cfg' (lit "streams") = Ok (VDict items') ->
  Forall2 same_entry items items' ->
  get_streams_from_replication cfg = get_streams_from_replication cfg'.
Proof.
  intros H H' Hsame.
  rewrite (get_streams_of_items cfg H), (get_streams_of_items cfg' H').
  apply mapM_Forall2_ext. clear H H'.
  induction Hsame as [|e e' l l' He _ IH]; constructor.
  - apply same_entry_stream, He.
  - exact IH.
Qed.

Lemma enumeration_reads_only_meta_witness :
  get_streams_from_replication
    (replication_of
       [(lit "public.accounts", VNone);
        (lit "public.users",
         VDict [(lit "mode", VStr (lit "incremental"));
                (lit "meta", VDict [(lit "dagster",
                   VDict [(lit "asset_key", VStr (lit "mydb_users"))])])])])
  = get_streams_from_replication
      (VDict [(lit "source", VStr (lit "pg"));
              (lit "streams",
               VDict [(lit "public.accounts", VStr (lit "full-refresh"));
                      (lit "public.users",
                       dagster_meta (lit "asset_key")
                         (VStr (lit "mydb_users")))])]).
Proof.
  eapply enumeration_reads_only_meta; [reflexivity | reflexivity |].
  repeat constructor.
Defined.

(** X11: with the default translator, when every descriptor can be
    walked and every logical stream identifier is a string,
    [sling_assets] returns exactly one spec per stream entry, in the
    order of the streams mapping; the spec's key and dependency are
    the target and dependency keys of the entry's logical stream name,
    so the key is always the dependency with [target] in front. *)
Theorem sling_assets_succeeds (cfg : pyval) (items : dict)
    (gn cv : option str) :
  py_getitem cfg (lit "streams") = Ok (VDict items) ->
  forallb translatable items = true ->
  exists specs,
    sling_assets cfg DagsterSlingTranslator.instance gn cv = Ok specs
    /\ List.length specs = List.length items
    /\ Forall2
         (fun entry sp =>
            exists name,
              logical_stream entry = VStr name
              /\ target_identifier name None = Ok (key sp)
              /\ dependency_identifier name = Ok (deps sp)
              /\ path (key sp) = lit "target" :: path (deps sp))
         items specs.
Proof.
  intros Hs Ht. rewrite translatable_split in Ht.
  apply andb_prop in Ht as [Hw Hstr].
  rewrite (sling_assets_unfold cfg DagsterSlingTranslator.instance gn cv Hs).
  rewrite (mapM_walkable items Hw). cbn [bind].
  clear Hs Hw. induction items as [|e rest IH].
  - exists []. repeat split. constructor.
  - cbn [map forallb] in Hstr. apply andb_prop in Hstr as [He Hrest].
    destruct (IH Hrest) as [specs [E [Hlen HF]]].
    destruct (logical_stream e) as [| | |name| | | | | | |] eqn:El; try discriminate He.
    cbn [map mapM]. rewrite El, default_spec_of_string. cbn [bind].
    rewrite E. cbn [bind]. eexists. split; [reflexivity|].
    split; [cbn; rewrite Hlen; reflexivity|].
    constructor; [|exact HF].
    exists name. cbn [key deps path].
    rewrite target_identifier_eq, dependency_identifier_eq. repeat split.
    exact El.
Qed.

Lemma sling_assets_succeeds_witness :
  forallb translatable two_streams = true
  /\ exists specs,
       sling_assets (replication_of two_streams)
         DagsterSlingTranslator.instance None None = Ok specs
       /\ List.length specs = 2.
Proof.
  split; [reflexivity|].
  destruct (@sling_assets_succeeds (replication_of two_streams) two_streams
              None None eq_refl eq_refl) as [specs [H [Hlen _]]].
  exists specs. split; [exact H | exact Hlen].
Defined.

(** X12: with the default translator, [sling_assets] raises, and builds
    no spec at all, as soon as one entry has a descriptor that cannot
    be walked or a logical stream identifier that is not a string.
    The exception is [AttributeError] when a descriptor cannot be
    walked; otherwise it is the one raised for the first identifier
    that is not a string: [TypeError] for bytes, a date or a datetime
    (their own [replace] rejects the string arguments),
    [AttributeError] for anything else, such as a list. *)
Theorem sling_assets_fails (cfg : pyval) (items : dict) (gn cv : option str) :
  py_getitem cfg (lit "streams") = Ok (VDict items) ->
  forallb translatable items = false ->
  exists e : exn,
    sling_assets cfg DagsterSlingTranslator.instance gn cv = Raise e
    /\ (e = AttributeError \/ e = TypeError)
    /\ (forallb walkable (map snd items) = false -> e = AttributeError)
    /\ (forallb walkable (map snd items) = true ->
        forall (before : dict) (entry : str * pyval) (after : dict),
          items = before ++ entry :: after ->
          forallb is_str (map logical_stream before) = true ->
          is_str (logical_stream entry) = false ->
          e = replace_failure (logical_stream entry)).
Proof.
  intros Hs Ht. rewrite translatable_split in Ht.
  rewrite (sling_assets_unfold cfg DagsterSlingTranslator.instance gn cv Hs).
  destruct (forallb walkable (map snd items)) eqn:Hw.
  - rewrite (mapM_walkable items Hw). cbn [bind]. cbn [andb] in Ht.
    destruct (first_non_string _ Ht) as [b [v [a [E [Hb Hv]]]]].
    exists (replace_failure v). rewrite E.
    rewrite (mapM_default_first_non_string gn cv b v a Hb Hv).
    split; [reflexivity|].
    split; [unfold replace_failure; destruct (has_other_replace v); auto|].
    split; [discriminate|].
    intros _ before entry after Ei Hbefore Hentry.
    rewrite Ei, map_app in E. cbn [map] in E.
    pose proof (mapM_default_first_non_string gn cv _ _
                  (map logical_stream after) Hbefore Hentry) as H1.
    rewrite E in H1.
    rewrite (mapM_default_first_non_string gn cv b v a Hb Hv) in H1.
    injection H1 as H1. exact H1.
  - rewrite (mapM_some_not_walkable items Hw). exists AttributeError.
    split; [reflexivity|]. split; [left; reflexivity|].
    split; [reflexivity | discriminate].
Qed.

Lemma sling_assets_fails_witness :
  sling_assets
    (replication_of
       [(lit "public.accounts", VNone);
        (lit "public.users",
         dagster_meta (lit "asset_key") (VDate 2024 1 31))])
    DagsterSlingTranslator.instance None None
  = Raise TypeError
  /\ sling_assets
       (replication_of
          [(lit "public.accounts", VNone);
           (lit "public.users",
            dagster_meta (lit "asset_key")
              (VList [VStr (lit "mydb"); VStr (lit "users")]))])
       DagsterSlingTranslator.instance None None
     = Raise AttributeError.
Proof.
  split.
  - destruct (@sling_assets_fails
                (replication_of
                   [(lit "public.accounts", VNone);
                    (lit "public.users",
                     dagster_meta (lit "asset_key") (VDate 2024 1 31))])
                [(lit "public.accounts", VNone);
                 (lit "public.users",
                  dagster_meta (lit "asset_key") (VDate 2024 1 31))]
                None None eq_refl eq_refl) as [e [H [_ [_ Hfirst]]]].
    rewrite H. f_equal.
    exact (Hfirst eq_refl [(lit "public.accounts", VNone)]
             (lit "public.users",
              dagster_meta (lit "asset_key") (VDate 2024 1 31))
             [] eq_refl eq_refl eq_refl).
  - destruct (@sling_assets_fails
                (replication_of
                   [(lit "public.accounts", VNone);
                    (lit "public.users",
                     dagster_meta (lit "asset_key")
                       (VList [VStr (lit "mydb"); VStr (lit "users")]))])
                [(lit "public.accounts", VNone);
                 (lit "public.users",
                  dagster_meta (lit "asset_key")
                    (VList [VStr (lit "mydb"); VStr (lit "users")]))]
                None None eq_refl eq_refl) as [e [H [_ [_ Hfirst]]]].
    rewrite H. f_equal.
    exact (Hfirst eq_refl [(lit "public.accounts", VNone)]
             (lit "public.users",
              dagster_meta (lit "asset_key")
                (VList [VStr (lit "mydb"); VStr (lit "users")]))
             [] eq_refl eq_refl eq_refl).
Defined.

(** X13: whatever translator is substituted, when [sling_assets]
    returns, it returns one spec per stream entry, and every spec
    carries the caller's [group_name] and [code_version] unchanged. *)
Theorem sling_assets_passes_through (t : SlingTranslator) (cfg : pyval)
    (items : dict) (gn cv : option str) (specs : list AssetSpec) :
  py_getitem cfg (lit "streams") = Ok (VDict items) ->
  sling_assets cfg t gn cv = Ok specs ->
  List.length specs = List.length items
  /\ Forall (fun sp => group_name sp = gn /\ code_version sp = cv) specs.
Proof.
  intros Hs H. rewrite (sling_assets_unfold cfg t gn cv Hs) in H.
  destruct (mapM _ items) as [ks|] eqn:Ek; cbn [bind] in H; [|discriminate H].
  split.
  - rewrite (@mapM_length _ _ _ _ _ H), (@mapM_length _ _ _ _ _ Ek).
    reflexivity.
  - eapply mapM_Forall; [|exact H].
    intros x y. unfold spec_of_stream.
    destruct (tr_get_asset_key_for_target t x None); cbn; [|discriminate].
    destruct (tr_get_deps_asset_key t x); cbn; [|discriminate].
    intros [= <-]. split; reflexivity.
Qed.

Lemma sling_assets_passes_through_witness :
  sling_assets (replication_of [(lit "stream1", VNone)])
    CustomSlingTranslator.instance (Some (lit "sling")) (Some (lit "1"))
  = Ok [ {| key := mkAssetKey [lit "asset1"]; deps := mkAssetKey [lit "asset1"];
            group_name := Some (lit "sling");
            code_version := Some (lit "1") |} ]
  /\ Forall (fun sp => group_name sp = Some (lit "sling")
                       /\ code_version sp = Some (lit "1"))
       [ {| key := mkAssetKey [lit "asset1"]; deps := mkAssetKey [lit "asset1"];
            group_name := Some (lit "sling");
            code_version := Some (lit "1") |} ].
Proof.
  split; [reflexivity|].
  exact (proj2 (@sling_assets_passes_through CustomSlingTranslator.instance
                  (replication_of [(lit "stream1", VNone)])
                  [(lit "stream1", VNone)]
                  (Some (lit "sling")) (Some (lit "1")) _
                  eq_refl eq_refl)).
Defined.

(** X14: nothing merges or rejects colliding names: a stream name and
    the same name behind a double quote are two different keys of the
    streams mapping, and [sling_assets] returns two specs with the
    same target key and the same dependency key for them. *)
Theorem colliding_names_are_kept (s : str) :
  dquote :: s <> s
  /\ exists p : AssetKey * AssetKey,
       translation_pairs DagsterSlingTranslator.instance
         (replication_of [(s, VNone); (dquote :: s, VNone)])
       = Ok [p; p].
Proof.
  split.
  - intros H. apply (f_equal (@List.length char)) in H. cbn in H.
    exact (n_Sn _ (eq_sym H)).
  - unfold translation_pairs.
    rewrite (sling_assets_unfold _ DagsterSlingTranslator.instance None None
               (getitem_replication_of _)).
    cbn [mapM stream_of_item isinstance_dict fst snd bind].
    rewrite !default_spec_of_string, sanitize_spec_dquote.
    cbn [bind pairs map key deps]. eexists. reflexivity.
Qed.

(** X15: a config whose streams mapping is empty is not an error: for
    any translator, [sling_assets] returns the empty list of specs. *)
Theorem sling_assets_no_streams (t : SlingTranslator) (cfg : pyval)
    (gn cv : option str) :
  py_getitem cfg (lit "streams") = Ok (VDict []) ->
  sling_assets cfg t gn cv = Ok [].
Proof.
  intros Hs. rewrite (sling_assets_unfold cfg t gn cv Hs). reflexivity.
Qed.

Lemma sling_assets_no_streams_witness :
  sling_assets (VDict [(lit "source", VStr (lit "pg")); (lit "streams", VDict [])])
    CustomSlingTranslator.instance None None
  = Ok [].
Proof.
  exact (@sling_assets_no_streams CustomSlingTranslator.instance
           (VDict [(lit "source", VStr (lit "pg")); (lit "streams", VDict [])])
           None None eq_refl).
Defined.

(** X16: when a descriptor carries a truthy [asset_key] override, the
    raw stream key plays no part in the enumeration: renaming the
    stream changes nothing, so no translator ever sees the name the
    stream has in the replication config. *)
Theorem override_hides_stream_name (key key' : str) (descriptor ov : pyval)
    (before after : dict) :
  declared_override descriptor = Some ov ->
  truthy ov = true ->
  get_streams_from_replication
    (replication_of (before ++ (key, descriptor) :: after))
  = get_streams_from_replication
      (replication_of (before ++ (key', descriptor) :: after)).
Proof.
  intros Hov Ht.
  assert (E : forall k, stream_of_item k descriptor = Ok ov).
  { intros k.
    rewrite (stream_of_item_walkable k descriptor
               (declared_override_walkable descriptor Hov)).
    unfold logical_stream. cbn [fst snd]. rewrite Hov, Ht. reflexivity. }
  rewrite !(get_streams_of_items _ (getitem_replication_of _)).
  rewrite !mapM_app. cbn [mapM fst snd]. rewrite !E. reflexivity.
Qed.

Lemma override_hides_stream_name_witness :
  get_streams_from_replication
    (replication_of
       [(lit "public.users",
         dagster_meta (lit "asset_key") (VStr (lit "mydb_users")))])
  = get_streams_from_replication
      (replication_of
         [(lit "public.accounts",
           dagster_meta (lit "asset_key") (VStr (lit "mydb_users")))]).
Proof.
  exact (@override_hides_stream_name (lit "public.users")
           (lit "public.accounts")
           (dagster_meta (lit "asset_key") (VStr (lit "mydb_users")))
           (VStr (lit "mydb_users")) [] [] eq_refl eq_refl).
Defined.

(* ===================================================================== *)
(** ** Properties of the Redshift statements *)
(* ===================================================================== *)

Section RedshiftFacts.

Variable datetime : Type.
Variable strftime : datetime -> str -> str.

(** X18: an empty column list selects every column, exactly as no
    column list does: the two slices print the same lines and give the
    same statement; and the statement starts with [SELECT *]. *)
Theorem no_columns_selects_all (t s : str)
    (p : option (Redshift.TablePartition datetime)) :
  Redshift.get_select_statement strftime
    (Redshift.mkTableSlice t s (Some []) p)
  = Redshift.get_select_statement strftime
      (Redshift.mkTableSlice t s None p)
  /\ exists rest : str,
       snd (Redshift.get_select_statement strftime
              (Redshift.mkTableSlice t s None p))
       = lit "SELECT * FROM " ++ rest.
Proof.
  split; [reflexivity|].
  unfold Redshift.get_select_statement. cbn [Redshift.partition].
  destruct p; cbn [snd]; eexists; reflexivity.
Qed.

End RedshiftFacts.
